(** * extract_pdf.py: PDF text extractor for the VisaNet user journey

    A shallow embedding of [src/extract_pdf.py].  The script has one
    function, [extract_pdf_text], and a [__main__] block.  Everything the
    script does is sequencing of effects: calls into the pypdf library,
    [print] on the two standard streams, and one file write.  The embedding
    keeps those effects in a single chronological event log and models
    Python exceptions, including the class test of [except Exception].
    The pypdf library is a parameter: what [PdfReader] and
    [page.extract_text] return or raise is given from outside.  So is the
    host the script runs on: whether the output file can be opened and
    written, and whether standard output takes the final message, is the
    host's answer, and each of the three can raise.  Inside
    [extract_pdf_text] printing is taken to succeed. *)

From Stdlib Require Import String Ascii List Arith Lia Bool DecimalString.
Import ListNotations.
Local Open Scope list_scope.
Local Open Scope string_scope.

(* ===================================================================== *)
(** * Python strings                                                     *)
(* ===================================================================== *)

Module PyStr.

(** The line feed character, Python's ["\n"]. *)
Definition nl : string := String (ascii_of_nat 10) EmptyString.

(** U+2713 CHECK MARK, held here as its three UTF-8 bytes. *)
Definition check_mark : string :=
  String (ascii_of_nat 226)
    (String (ascii_of_nat 156) (String (ascii_of_nat 147) EmptyString)).

(** [s * n] on a Python string. *)
Fixpoint repeat (s : string) (n : nat) : string :=
  match n with
  | O => ""
  | S k => s ++ repeat s k
  end.

(** [str(n)] / [f"{n}"] for a non-negative integer. *)
Definition of_nat (n : nat) : string :=
  NilZero.string_of_uint (Nat.to_uint n).

(** [sep.join(parts)]. *)
Fixpoint join (sep : string) (parts : list string) : string :=
  match parts with
  | [] => ""
  | [x] => x
  | x :: rest => x ++ sep ++ join sep rest
  end.

(** Truth value of a string: only the empty string is falsy. *)
Definition truthy (s : string) : bool :=
  match s with
  | EmptyString => false
  | String _ _ => true
  end.

(** Whether every character is ASCII. *)
Fixpoint is_ascii (s : string) : bool :=
  match s with
  | EmptyString => true
  | String c rest => Nat.ltb (nat_of_ascii c) 128 && is_ascii rest
  end.

(** Whether the string can be encoded as UTF-8.  A string is held as its
    UTF-8 bytes; a lone surrogate (U+D800..U+DFFF), which UTF-8 refuses,
    is held in the three-byte form that starts ED A0..BF. *)
Fixpoint utf8_encodable (s : string) : bool :=
  match s with
  | EmptyString => true
  | String c rest =>
      match rest with
      | EmptyString => true
      | String d _ =>
          if Nat.eqb (nat_of_ascii c) 237 && Nat.leb 160 (nat_of_ascii d)
          then false
          else utf8_encodable rest
      end
  end.

End PyStr.

(* ===================================================================== *)
(** * Exceptions, effects and the event log                              *)
(* ===================================================================== *)

Module Py.

(** The top of Python's exception hierarchy.  [BaseException] has the
    direct subclasses [KeyboardInterrupt], [SystemExit], [GeneratorExit]
    and [Exception]; every other exception class (the built-in errors
    such as [FileNotFoundError], and every class pypdf defines) derives
    from [Exception] and is recorded by its name. *)
Inductive exc_class : Type :=
| KeyboardInterrupt
| SystemExit
| GeneratorExit
| ExceptionSubclass (qualname : string).

(** An exception instance: its class and the text [str(e)]. *)
Record exn : Type := mk_exn { exc_type : exc_class; exc_str : string }.

(** [isinstance(e, Exception)], the test made by [except Exception]. *)
Definition isinstance_Exception (e : exn) : bool :=
  match exc_type e with
  | ExceptionSubclass _ => true
  | KeyboardInterrupt | SystemExit | GeneratorExit => false
  end.

Inductive stream : Type := Stdout | Stderr.

(** What the script does to the outside world, in order of occurrence.
    [EvPrint f s] is a call [print(s, file=f)]; the stream receives [s]
    followed by a line feed. *)
Inductive event : Type :=
| EvPdfReader (path : string)            (* PdfReader(path)            *)
| EvExtractText (page_num : nat)         (* page.extract_text()        *)
| EvPrint (f : stream) (s : string)      (* print(s, file=f)           *)
| EvOpenW (path : string)                (* open(path, "w", ...)       *)
| EvWrite (path : string) (data : string). (* f.write(data)            *)

(** How a computation ends: with a value, or with a raised exception. *)
Inductive outcome (A : Type) : Type :=
| Return (a : A)
| Raise (e : exn).
Arguments Return {A} a.
Arguments Raise {A} e.

(** A computation: how it ends, and the events it emitted until then.
    The log survives an exception: what was printed stays printed. *)
Definition M (A : Type) : Type := (outcome A * list event)%type.

Definition result {A} (m : M A) : outcome A := fst m.
Definition log {A} (m : M A) : list event := snd m.

Definition ret {A} (a : A) : M A := (Return a, []).

Definition bind {A B} (m : M A) (k : A -> M B) : M B :=
  match m with
  | (Return a, l) => let (o, l') := k a in (o, (l ++ l')%list)
  | (Raise e, l) => (Raise e, l)
  end.

Definition emit (ev : event) : M unit := (Return tt, [ev]).

(** A call into the library: the call is logged, its outcome is the
    library's. *)
Definition call {A} (ev : event) (r : outcome A) : M A := (r, [ev]).

(** [print(s, file=f)]. *)
Definition print (f : stream) (s : string) : M unit := emit (EvPrint f s).

(** An operation of the host that changes the outside world: when the
    host lets it through its effect [ev] is logged, and when the host
    raises nothing has happened. *)
Definition attempt (r : outcome unit) (ev : event) : M unit :=
  match r with
  | Return _ => (Return tt, [ev])
  | Raise e => (Raise e, [])
  end.

(** [try: body / except Exception as e: handler e].  An exception that
    is not an instance of [Exception] is not handled and goes on to the
    caller. *)
Definition try_except_Exception {A} (body : M A) (handler : exn -> M A)
  : M A :=
  match body with
  | (Return a, l) => (Return a, l)
  | (Raise e, l) =>
      if isinstance_Exception e
      then let (o, l') := handler e in (o, (l ++ l')%list)
      else (Raise e, l)
  end.

(** [enumerate(xs, start)]. *)
Fixpoint enumerate {A} (xs : list A) (start : nat) : list (nat * A) :=
  match xs with
  | [] => []
  | x :: rest => (start, x) :: enumerate rest (S start)
  end.

(** [for x in xs: body], with the variables the body updates threaded
    through as [s]. *)
Fixpoint for_in {A S} (xs : list A) (body : S -> A -> M S) (s : S) : M S :=
  match xs with
  | [] => ret s
  | x :: rest => bind (body s x) (for_in rest body)
  end.

End Py.

Import Py.

Declare Scope py_scope.
Delimit Scope py_scope with py.
Notation "x <- c ;; k" := (bind c (fun x => k))
  (at level 61, c at next level, right associativity) : py_scope.
Notation "c ;; k" := (bind c (fun _ => k))
  (at level 61, right associativity) : py_scope.
Local Open Scope py_scope.

(* ===================================================================== *)
(** * The pypdf interface used by the script                             *)
(* ===================================================================== *)

(** A page of an opened document: [page.extract_text()] either returns the
    page's text or raises. *)
Record Page : Type := mk_Page { extract_text : outcome string }.

(** An opened document: [reader.pages] is the sequence of its pages. *)
Record Reader : Type := mk_Reader { pages : list Page }.

(* ===================================================================== *)
(** * The host the script runs on                                        *)
(* ===================================================================== *)

(** What the operating system and the interpreter answer to the three
    output operations of the main block.
    - [open_w path]: [open(path, "w", encoding="utf-8")], which raises
      when the path cannot be opened for writing (a directory stands
      there, no permission, ...);
    - [write path data]: [f.write(data)] up to the closing of the file,
      which raises when [data] cannot be encoded as UTF-8 or cannot be
      stored;
    - [stdout_print environ s]: [print(s)] on standard output as the
      interpreter set it up from the environment variables [environ],
      which raises when the encoding of standard output has no code for
      a character of [s]. *)
Record Host : Type := mk_Host {
  open_w : string -> outcome unit;
  write : string -> string -> outcome unit;
  stdout_print : list (string * string) -> string -> outcome unit
}.

(* ===================================================================== *)
(** * Reading the event log                                              *)
(* ===================================================================== *)

(** The files the run created, read back from the log: [open(p, "w")]
    creates or truncates [p], [f.write(d)] appends [d] to it. *)
Definition fs_step (fs : string -> option string) (ev : event)
  : string -> option string :=
  match ev with
  | EvOpenW p => fun q => if String.eqb q p then Some "" else fs q
  | EvWrite p d =>
      fun q => if String.eqb q p
               then match fs p with
                    | Some old => Some (old ++ d)
                    | None => None
                    end
               else fs q
  | EvPdfReader _ | EvExtractText _ | EvPrint _ _ => fs
  end.

Definition files_written (l : list event) : string -> option string :=
  fold_left fs_step l (fun _ => None).

(** The messages printed on one stream, in order. *)
Fixpoint printed (f : stream) (l : list event) : list string :=
  match l with
  | [] => []
  | EvPrint Stdout s :: rest =>
      match f with Stdout => s :: printed f rest | Stderr => printed f rest end
  | EvPrint Stderr s :: rest =>
      match f with Stderr => s :: printed f rest | Stdout => printed f rest end
  | _ :: rest => printed f rest
  end.

(* ===================================================================== *)
(** * The script                                                         *)
(* ===================================================================== *)

Section Script.

(** The constructor [pypdf.PdfReader]: for each path it either opens the
    document or raises (missing file, corrupt PDF, ...). *)
Variable PdfReader : string -> outcome Reader.

(** The host: the file system and standard output. *)
Variable host : Host.

(** The body of the loop over [enumerate(reader.pages, 1)];
    [text_content] is the list the loop appends to. *)
Definition page_step (text_content : list string) (it : nat * Page)
  : M (list string) :=
  let (page_num, page) := it in
  print Stdout (PyStr.nl ++ "--- PAGE " ++ PyStr.of_nat page_num ++ " ---"
                  ++ PyStr.nl) ;;
  text <- call (EvExtractText page_num) (extract_text page) ;;
  let text_content := (text_content ++ [text])%list in
  print Stdout text ;;
  print Stdout (PyStr.nl ++ PyStr.repeat "=" 80) ;;
  ret text_content.

(** The [try] block of [extract_pdf_text]. *)
Definition try_block (pdf_path : string) : M (option string) :=
  reader <- call (EvPdfReader pdf_path) (PdfReader pdf_path) ;;
  let text_content := [] in
  print Stdout ("PDF Pages: " ++ PyStr.of_nat (length (pages reader))
                  ++ PyStr.nl) ;;
  print Stdout (PyStr.repeat "=" 80) ;;
  text_content <- for_in (enumerate (pages reader) 1) page_step text_content ;;
  ret (Some (PyStr.join (PyStr.nl ++ PyStr.nl) text_content)).

(** The [except Exception as e] block. *)
Definition except_block (e : exn) : M (option string) :=
  print Stderr ("Error extracting PDF: " ++ exc_str e) ;;
  ret None.

(** [extract_pdf_text(pdf_path)].  The value returned is Python's [None]
    or a string [s], held here as [None] and [Some s]. *)
Definition extract_pdf_text (pdf_path : string) : M (option string) :=
  try_except_Exception (try_block pdf_path) except_block.

(** [if text:] on a value that is [None] or a string. *)
Definition truthy (text : option string) : bool :=
  match text with
  | None => false
  | Some s => PyStr.truthy s
  end.

Definition input_path : string := "VISANET- user journey.pdf".
Definition output_path : string := "VISANET_user_journey_extracted.txt".
Definition saved_message : string :=
  PyStr.nl ++ PyStr.nl ++ PyStr.check_mark
    ++ " Text extracted and saved to VISANET_user_journey_extracted.txt".

(** [open(path, "w", encoding="utf-8")]: the file is created or
    truncated, unless the host raises. *)
Definition open_for_writing (path : string) : M unit :=
  attempt (open_w host path) (EvOpenW path).

(** [f.write(text)] on the file opened at [path]; a [text] that is not
    a string is refused with a [TypeError], and the host can raise (for
    one, [UnicodeEncodeError] on a text that UTF-8 cannot encode), in
    which case nothing is written. *)
Definition f_write (path : string) (text : option string) : M unit :=
  match text with
  | Some s => attempt (write host path s) (EvWrite path s)
  | None =>
      (Raise (mk_exn (ExceptionSubclass "TypeError")
                "write() argument must be str, not None"), [])
  end.

(** The block under [if text:]: the statement
    [with open(...) as f: f.write(text)] and the final [print].  Nothing
    catches what these raise: an exception here ends the program, and a
    file that was opened before stays as it is then. *)
Definition save_block (environ : list (string * string))
    (text : option string) : M unit :=
  open_for_writing output_path ;;
  f_write output_path text ;;
  attempt (stdout_print host environ saved_message)
          (EvPrint Stdout saved_message).

(** The [__main__] block.  [argv] and [environ] stand for [sys.argv] and
    [os.environ].  The script reads neither; the environment reaches the
    run through the interpreter's standard output. *)
Definition main (argv : list string) (environ : list (string * string))
  : M unit :=
  let pdf_path := input_path in
  text <- extract_pdf_text pdf_path ;;
  if truthy text then save_block environ text else ret tt.

End Script.

(* ===================================================================== *)
(** * Vocabulary of the specification                                    *)
(* ===================================================================== *)

(** The separator between pages in the document string: a blank line. *)
Definition page_sep : string := PyStr.nl ++ PyStr.nl.

(** The horizontal rule printed between pages. *)
Definition rule : string := PyStr.repeat "=" 80.

(** Page [p] extracts to the text [t]. *)
Definition page_ok (p : Page) (t : string) : Prop :=
  extract_text p = Return t.

(** The document at [path] is a valid PDF whose pages extract, in order,
    to the texts [ts]: opening it and extracting every page raises
    nothing. *)
Definition extracts (PdfReader : string -> outcome Reader)
    (path : string) (ts : list string) : Prop :=
  exists reader,
    PdfReader path = Return reader /\ Forall2 page_ok (pages reader) ts.

(** Extraction fails with the exception [e]: the [try] block raises it. *)
Definition extraction_raises (PdfReader : string -> outcome Reader)
    (path : string) (e : exn) : Prop :=
  result (try_block PdfReader path) = Raise e.

(** The diagnostic the handler prints for [e]. *)
Definition diagnostic (e : exn) : string :=
  "Error extracting PDF: " ++ exc_str e.

(** What the loop emits for page number [page_num] with text [t]. *)
Definition page_trace (it : nat * string) : list event :=
  let (page_num, t) := it in
  [ EvPrint Stdout (PyStr.nl ++ "--- PAGE " ++ PyStr.of_nat page_num ++ " ---"
                      ++ PyStr.nl);
    EvExtractText page_num;
    EvPrint Stdout t;
    EvPrint Stdout (PyStr.nl ++ rule) ].

(** What a successful [extract_pdf_text] emits on a document whose pages
    have the texts [ts]. *)
Definition extraction_trace (path : string) (ts : list string) : list event :=
  [ EvPdfReader path;
    EvPrint Stdout ("PDF Pages: " ++ PyStr.of_nat (length ts) ++ PyStr.nl);
    EvPrint Stdout rule ]
  ++ flat_map page_trace (enumerate ts 1).

(** What the block under [if text:] emits when it saves [doc]. *)
Definition save_trace (doc : string) : list event :=
  [ EvOpenW output_path; EvWrite output_path doc; EvPrint Stdout saved_message ].

(** The events a [try] block can emit: library calls and prints on
    standard output. *)
Definition body_event (ev : event) : bool :=
  match ev with
  | EvPdfReader _ | EvExtractText _ | EvPrint Stdout _ => true
  | EvPrint Stderr _ | EvOpenW _ | EvWrite _ _ => false
  end.

(** The events the loop can emit: page extractions and prints on
    standard output. *)
Definition page_event (ev : event) : bool :=
  match ev with
  | EvExtractText _ | EvPrint Stdout _ => true
  | EvPdfReader _ | EvPrint Stderr _ | EvOpenW _ | EvWrite _ _ => false
  end.

(** The document string as the specification words it: the page texts in
    page order, with the separator between consecutive pages. *)
Definition document (ts : list string) : string :=
  match ts with
  | [] => ""
  | t :: rest => t ++ fold_right (fun u acc => page_sep ++ u ++ acc) "" rest
  end.

(** The host lets the main block save [doc]: the output file opens and
    takes the text. *)
Definition can_save (host : Host) (doc : string) : Prop :=
  open_w host output_path = Return tt
  /\ write host output_path doc = Return tt.

(** The events that touch a file the script writes. *)
Definition file_event (ev : event) : bool :=
  match ev with
  | EvOpenW _ | EvWrite _ _ => true
  | EvPdfReader _ | EvExtractText _ | EvPrint _ _ => false
  end.

(** The events that open a document. *)
Definition opens_pdf (ev : event) : bool :=
  match ev with
  | EvPdfReader _ => true
  | EvExtractText _ | EvPrint _ _ | EvOpenW _ | EvWrite _ _ => false
  end.

(** The pages that come before a given page as they stand in the document
    string, each followed by the separator; and the pages that come after
    it, each preceded by the separator. *)
Definition before_pages (ts : list string) : string :=
  fold_right (fun t acc => t ++ page_sep ++ acc) "" ts.
Definition after_pages (ts : list string) : string :=
  fold_right (fun t acc => page_sep ++ t ++ acc) "" ts.

(** The page numbers handed to [page.extract_text()], in order. *)
Definition extracted_pages (l : list event) : list nat :=
  flat_map (fun ev => match ev with
                      | EvExtractText n => [n]
                      | _ => []
                      end) l.

(** The files after a run that started from the files [fs0]. *)
Definition files_after (fs0 : string -> option string) (l : list event)
  : string -> option string :=
  fold_left fs_step l fs0.

(** The number of characters in all the page texts together. *)
Definition total_length (ts : list string) : nat :=
  fold_right (fun t n => String.length t + n) 0 ts.

(** What a run emits when the page after the pages [ts] fails to extract,
    in a document of [n] pages: everything for the pages before, then the
    banner of the failing page and the call that raises. *)
Definition failure_trace (path : string) (n : nat) (ts : list string)
  : list event :=
  [ EvPdfReader path;
    EvPrint Stdout ("PDF Pages: " ++ PyStr.of_nat n ++ PyStr.nl);
    EvPrint Stdout rule ]
  ++ flat_map page_trace (enumerate ts 1)
  ++ [ EvPrint Stdout (PyStr.nl ++ "--- PAGE "
                         ++ PyStr.of_nat (1 + length ts) ++ " ---"
                         ++ PyStr.nl);
       EvExtractText (1 + length ts) ].

(* ===================================================================== *)
(** * Sample documents                                                   *)
(* ===================================================================== *)

Module Samples.

Definition text_page (t : string) : Page := mk_Page (Return t).

(** A two-page document. *)
Definition journey : string -> outcome Reader :=
  fun _ => Return (mk_Reader [text_page "Sign up"; text_page "Pay"]).

(** A one-page document. *)
Definition leaflet : string -> outcome Reader :=
  fun _ => Return (mk_Reader [text_page "Welcome to VisaNet"]).

(** A scanned page: an image with no text layer extracts to [""]. *)
Definition blank_scan : string -> outcome Reader :=
  fun _ => Return (mk_Reader [text_page ""]).

(** A document with no pages. *)
Definition no_pages : string -> outcome Reader :=
  fun _ => Return (mk_Reader []).

(** The input file does not exist. *)
Definition file_not_found : exn :=
  mk_exn (ExceptionSubclass "FileNotFoundError")
    "[Errno 2] No such file or directory: 'VISANET- user journey.pdf'".
Definition missing : string -> outcome Reader :=
  fun _ => Raise file_not_found.

(** A document whose second page is damaged. *)
Definition pdf_read_error : exn :=
  mk_exn (ExceptionSubclass "pypdf.errors.PdfReadError")
    "Invalid Elementary Object starting with b'x'".
Definition corrupt : string -> outcome Reader :=
  fun _ => Return (mk_Reader [text_page "Sign up";
                              mk_Page (Raise pdf_read_error)]).

(** The user presses Ctrl-C while the document is being opened. *)
Definition ctrl_c : exn := mk_exn KeyboardInterrupt "".
Definition interrupted_open : string -> outcome Reader :=
  fun _ => Raise ctrl_c.

(** The user presses Ctrl-C while the second page is being extracted. *)
Definition interrupted_page : string -> outcome Reader :=
  fun _ => Return (mk_Reader [text_page "Sign up"; mk_Page (Raise ctrl_c)]).

(** Only the hardcoded input exists; every other path is missing. *)
Definition only_input : string -> outcome Reader :=
  fun p => if String.eqb p input_path
           then Return (mk_Reader [text_page "Sign up"; text_page "Pay"])
           else Raise file_not_found.


(** A three-page document, and its two parts as documents of their own. *)
Definition handbook : string -> outcome Reader :=
  fun p =>
    if String.eqb p "part1.pdf"
    then Return (mk_Reader [text_page "Sign up"; text_page "Pay"])
    else if String.eqb p "part2.pdf"
    then Return (mk_Reader [text_page "Refund"])
    else Return (mk_Reader [text_page "Sign up"; text_page "Pay";
                            text_page "Refund"]).

(** Files left by earlier work: an older extraction and a note. *)
Definition old_files : string -> option string :=
  fun p =>
    if String.eqb p output_path then Some "stale text"
    else if String.eqb p "notes.txt" then Some "keep me"
    else None.

(** [os.environ.get(name)]. *)
Fixpoint getenv (environ : list (string * string)) (name : string)
  : option string :=
  match environ with
  | [] => None
  | (k, v) :: rest => if String.eqb k name then Some v else getenv rest name
  end.

Definition unicode_encode_error (codec : string) : exn :=
  mk_exn (ExceptionSubclass "UnicodeEncodeError")
    ("'" ++ codec ++ "' codec can't encode character").

Definition is_a_directory : exn :=
  mk_exn (ExceptionSubclass "IsADirectoryError")
    "[Errno 21] Is a directory: 'VISANET_user_journey_extracted.txt'".

(** An ordinary host: an empty writable directory and a UTF-8 terminal,
    unless the environment sets [PYTHONIOENCODING=ascii].  Writing
    refuses a text with a lone surrogate. *)
Definition desktop : Host :=
  mk_Host
    (fun _ => Return tt)
    (fun _ data =>
       if PyStr.utf8_encodable data then Return tt
       else Raise (unicode_encode_error "utf-8"))
    (fun environ s =>
       match getenv environ "PYTHONIOENCODING" with
       | Some "ascii" =>
           if PyStr.is_ascii s then Return tt
           else Raise (unicode_encode_error "ascii")
       | _ => Return tt
       end).

(** The same host with a directory standing where the output file
    should go. *)
Definition directory_in_the_way : Host :=
  mk_Host
    (fun p => if String.eqb p output_path then Raise is_a_directory
              else Return tt)
    (write desktop)
    (stdout_print desktop).


Definition ascii_environ : list (string * string) :=
  [("PYTHONIOENCODING", "ascii")].


End Samples.

(* ===================================================================== *)
(** * Sample runs                                                        *)
(* ===================================================================== *)

Example run_journey :
  main Samples.journey Samples.desktop [] [] =
  (Return tt,
   (extraction_trace input_path ["Sign up"; "Pay"]
    ++ save_trace ("Sign up" ++ page_sep ++ "Pay"))%list).
Proof. reflexivity. Qed.

Example run_missing :
  main Samples.missing Samples.desktop [] [] =
  (Return tt,
   [EvPdfReader input_path;
    EvPrint Stderr (diagnostic Samples.file_not_found)]).
Proof. reflexivity. Qed.

Example run_corrupt :
  extract_pdf_text Samples.corrupt input_path =
  (Return None,
   [EvPdfReader input_path;
    EvPrint Stdout ("PDF Pages: 2" ++ PyStr.nl);
    EvPrint Stdout rule;
    EvPrint Stdout (PyStr.nl ++ "--- PAGE 1 ---" ++ PyStr.nl);
    EvExtractText 1;
    EvPrint Stdout "Sign up";
    EvPrint Stdout (PyStr.nl ++ rule);
    EvPrint Stdout (PyStr.nl ++ "--- PAGE 2 ---" ++ PyStr.nl);
    EvExtractText 2;
    EvPrint Stderr (diagnostic Samples.pdf_read_error)]).
Proof. reflexivity. Qed.

Example run_interrupted :
  extract_pdf_text Samples.interrupted_open input_path =
  (Raise Samples.ctrl_c, [EvPdfReader input_path]).
Proof. reflexivity. Qed.

Example run_blank_scan :
  main Samples.blank_scan Samples.desktop [] [] =
  (Return tt, extraction_trace input_path [""]).
Proof. reflexivity. Qed.

(* ===================================================================== *)
(** * Facts about strings and joins                                      *)
(* ===================================================================== *)

Section JoinFacts.

Variable sep : string.

Lemma append_nil_r (s : string) : s ++ "" = s.
Proof. induction s as [|c s IH]; simpl; congruence. Qed.

Lemma append_assoc (a b c : string) : (a ++ b) ++ c = a ++ b ++ c.
Proof. induction a as [|x a IH]; simpl; congruence. Qed.

Lemma append_eq_empty (a b : string) : a ++ b = "" -> a = "" /\ b = "".
Proof. destruct a; simpl; intros H; [auto | discriminate]. Qed.

Lemma truthy_true_iff (s : string) : PyStr.truthy s = true <-> s <> "".
Proof. destruct s; simpl; split; intros H; congruence. Qed.

Lemma join_cons (x y : string) (rest : list string) :
  PyStr.join sep (x :: y :: rest) = x ++ sep ++ PyStr.join sep (y :: rest).
Proof. reflexivity. Qed.

End JoinFacts.

(* ===================================================================== *)
(** * The event log                                                      *)
(* ===================================================================== *)

Lemma printed_app (f : stream) (l1 l2 : list event) :
  printed f (l1 ++ l2)%list = (printed f l1 ++ printed f l2)%list.
Proof.
  induction l1 as [|ev l1 IH]; [reflexivity|].
  destruct ev as [p|n|[|] s|p|p d], f; simpl; rewrite ?IH; reflexivity.
Qed.

(** A [try] block prints nothing on the error stream. *)
Lemma body_events_stderr (l : list event) :
  forallb body_event l = true -> printed Stderr l = [].
Proof.
  induction l as [|ev l IH]; [reflexivity|].
  simpl. intros H. apply andb_prop in H as [Hev Hl].
  destruct ev as [p|n|[|] s|p|p d]; simpl in *; try discriminate; auto.
Qed.

(** A [try] block leaves the files alone. *)
Lemma body_events_files (l : list event) (fs : string -> option string) :
  forallb body_event l = true -> fold_left fs_step l fs = fs.
Proof.
  revert fs. induction l as [|ev l IH]; intros fs; [reflexivity|].
  simpl. intros H. apply andb_prop in H as [Hev Hl].
  destruct ev as [p|n|[|] s|p|p d]; simpl in *; try discriminate; auto.
Qed.

Lemma body_events_no_file (l : list event) :
  forallb body_event l = true -> existsb file_event l = false.
Proof.
  induction l as [|ev l IH]; [reflexivity|].
  cbn [forallb existsb]. intros H. apply andb_prop in H as [Hev Hl].
  rewrite (IH Hl). destruct ev as [p|n|[|] s|p|p d]; try discriminate;
    reflexivity.
Qed.

Lemma files_written_body (l l' : list event) :
  forallb body_event l = true ->
  files_written (l ++ l')%list = files_written l'.
Proof.
  intros H. unfold files_written.
  rewrite fold_left_app, (body_events_files l) by exact H. reflexivity.
Qed.

(* ===================================================================== *)
(** * The loop over the pages                                            *)
(* ===================================================================== *)

(** When every page extracts, the loop returns the texts appended to the
    list it started from and emits each page's events in page order. *)
Lemma loop_ok (ps : list Page) (ts : list string) :
  Forall2 page_ok ps ts ->
  forall (start : nat) (text_content : list string),
    for_in (enumerate ps start) page_step text_content
    = (Return (text_content ++ ts)%list,
       flat_map page_trace (enumerate ts start)).
Proof.
  induction 1 as [|p t ps ts Hp Hps IH]; intros start acc.
  - simpl. now rewrite app_nil_r.
  - cbn [enumerate for_in page_step].
    unfold page_ok in Hp. rewrite Hp.
    cbn [bind print emit call ret app].
    rewrite IH. cbn [flat_map page_trace app].
    rewrite <- app_assoc. reflexivity.
Qed.

Lemma page_event_body (ev : event) :
  page_event ev = true -> body_event ev = true.
Proof. destruct ev as [p|n|[|] s|p|p d]; simpl; congruence. Qed.

Lemma page_events_body (l : list event) :
  forallb page_event l = true -> forallb body_event l = true.
Proof.
  rewrite !forallb_forall. intros H ev Hin. apply page_event_body; auto.
Qed.

(** The loop emits only page events, however it ends. *)
Lemma loop_events (ps : list Page) :
  forall (start : nat) (text_content : list string),
    forallb page_event
      (log (for_in (enumerate ps start) page_step text_content)) = true.
Proof.
  induction ps as [|p ps IH]; intros start acc; [reflexivity|].
  cbn [enumerate for_in page_step].
  destruct (extract_text p) as [t|e]; [|reflexivity].
  cbn [bind print emit call ret app].
  specialize (IH (S start) (acc ++ [t])%list).
  destruct (for_in _ _ _) as [o l]. exact IH.
Qed.

(** The loop raises at the first page that does not extract. *)
Lemma loop_raises (ps1 : list Page) (ts : list string)
    (p : Page) (ps2 : list Page) (e : exn) :
  Forall2 page_ok ps1 ts ->
  extract_text p = Raise e ->
  forall (start : nat) (text_content : list string),
    result (for_in (enumerate (ps1 ++ p :: ps2) start) page_step text_content)
    = Raise e.
Proof.
  intros Hok Hp. induction Hok as [|q t ps1 ts Hq Hok IH]; intros start acc.
  - cbn [app enumerate for_in page_step]. rewrite Hp. reflexivity.
  - cbn [app enumerate for_in page_step].
    unfold page_ok in Hq. rewrite Hq.
    cbn [bind print emit call ret app].
    specialize (IH (S start) (acc ++ [t])%list).
    destruct (for_in _ _ _) as [o l]. exact IH.
Qed.

(** Either every page extracts, or the loop raises. *)
Lemma loop_cases (ps : list Page) :
  forall (start : nat) (text_content : list string),
    (exists ts, Forall2 page_ok ps ts)
    \/ (exists e,
         result (for_in (enumerate ps start) page_step text_content)
         = Raise e).
Proof.
  induction ps as [|p ps IH]; intros start acc.
  - left. exists []. constructor.
  - cbn [enumerate for_in page_step].
    destruct (extract_text p) as [t|e] eqn:Hp.
    + cbn [bind print emit call ret app].
      destruct (IH (S start) (acc ++ [t])%list) as [[ts Hts]|[e He]].
      * left. exists (t :: ts). constructor; assumption.
      * right. exists e.
        destruct (for_in _ _ _) as [o l]. exact He.
    + right. exists e. reflexivity.
Qed.

(* ===================================================================== *)
(** * The [try] block, the handler and the main block                    *)
(* ===================================================================== *)

Section Runs.

Variable PdfReader : string -> outcome Reader.
Variable path : string.

Lemma try_block_ok (ts : list string) :
  extracts PdfReader path ts ->
  try_block PdfReader path
  = (Return (Some (PyStr.join page_sep ts)), extraction_trace path ts).
Proof.
  intros (reader & Hopen & Hpages). unfold try_block. rewrite Hopen.
  cbn [bind print emit call ret app].
  rewrite (loop_ok _ _ Hpages). cbn [bind ret app].
  rewrite (Forall2_length Hpages), app_nil_r. reflexivity.
Qed.

(** The [try] block opens [path] first and opens nothing else. *)
Lemma try_block_log :
  exists rest,
    log (try_block PdfReader path) = EvPdfReader path :: rest
    /\ forallb page_event rest = true.
Proof.
  unfold try_block. destruct (PdfReader path) as [reader|e].
  - cbn [bind print emit call ret app].
    pose proof (loop_events (pages reader) 1 []) as H.
    destruct (for_in _ _ _) as [[tc|e] l]; cbn [bind ret log snd] in *;
      eexists; (split; [reflexivity|]); rewrite ?app_nil_r; exact H.
  - exists []. split; reflexivity.
Qed.

Lemma try_block_events :
  forallb body_event (log (try_block PdfReader path)) = true.
Proof.
  destruct try_block_log as (rest & -> & H).
  apply page_events_body in H. exact H.
Qed.

Lemma extraction_trace_body (ts : list string) :
  extracts PdfReader path ts ->
  forallb body_event (extraction_trace path ts) = true.
Proof.
  intros Hok. pose proof try_block_events as H.
  rewrite (try_block_ok _ Hok) in H. exact H.
Qed.

(** A document that cannot be opened makes the [try] block raise. *)
Lemma open_failure_raises (e : exn) :
  PdfReader path = Raise e -> extraction_raises PdfReader path e.
Proof.
  intros Hopen. unfold extraction_raises, try_block. rewrite Hopen.
  reflexivity.
Qed.

(** So does the first page that cannot be extracted. *)
Lemma page_failure_raises (reader : Reader) (ps1 ps2 : list Page)
    (ts : list string) (p : Page) (e : exn) :
  PdfReader path = Return reader ->
  pages reader = (ps1 ++ p :: ps2)%list ->
  Forall2 page_ok ps1 ts ->
  extract_text p = Raise e ->
  extraction_raises PdfReader path e.
Proof.
  intros Hopen Hpages Hok Hp. unfold extraction_raises, try_block.
  rewrite Hopen. cbn [bind print emit call ret app]. rewrite Hpages.
  pose proof (loop_raises ps1 ts p ps2 e Hok Hp 1 []) as H.
  destruct (for_in _ _ _) as [o l]. cbn in H. subst o. reflexivity.
Qed.

(** Every run either extracts all the pages or raises in the [try]
    block. *)
Lemma try_block_cases :
  (exists ts, extracts PdfReader path ts)
  \/ (exists e, extraction_raises PdfReader path e).
Proof.
  unfold extracts, extraction_raises, try_block.
  destruct (PdfReader path) as [reader|e]; [|right; exists e; reflexivity].
  destruct (loop_cases (pages reader) 1 []) as [[ts Hts]|[e He]].
  - left. exists ts, reader. auto.
  - right. exists e. cbn [bind print emit call ret app].
    destruct (for_in _ _ _) as [o l]. cbn in He. subst o. reflexivity.
Qed.

Lemma extracts_not_raises (ts : list string) (e : exn) :
  extracts PdfReader path ts -> extraction_raises PdfReader path e -> False.
Proof.
  intros Hok Hraise. unfold extraction_raises in Hraise.
  rewrite (try_block_ok _ Hok) in Hraise. discriminate.
Qed.

Lemma extract_ok (ts : list string) :
  extracts PdfReader path ts ->
  extract_pdf_text PdfReader path
  = (Return (Some (PyStr.join page_sep ts)), extraction_trace path ts).
Proof.
  intros H. unfold extract_pdf_text. now rewrite (try_block_ok _ H).
Qed.

(** An instance of [Exception] reaches the handler. *)
Lemma extract_caught (e : exn) :
  extraction_raises PdfReader path e ->
  isinstance_Exception e = true ->
  extract_pdf_text PdfReader path
  = (Return None,
     (log (try_block PdfReader path) ++ [EvPrint Stderr (diagnostic e)])%list).
Proof.
  unfold extraction_raises, extract_pdf_text, try_except_Exception.
  destruct (try_block PdfReader path) as [o l]. cbn [result log fst snd].
  intros -> ->. reflexivity.
Qed.

(** Any other exception passes the handler by. *)
Lemma extract_propagates (e : exn) :
  extraction_raises PdfReader path e ->
  isinstance_Exception e = false ->
  extract_pdf_text PdfReader path
  = (Raise e, log (try_block PdfReader path)).
Proof.
  unfold extraction_raises, extract_pdf_text, try_except_Exception.
  destruct (try_block PdfReader path) as [o l]. cbn [result log fst snd].
  intros -> ->. reflexivity.
Qed.

End Runs.

(** The document of the specification is what [join] gives. *)
Lemma join_document (ts : list string) :
  PyStr.join page_sep ts = document ts.
Proof.
  destruct ts as [|t rest]; [reflexivity|].
  revert t. induction rest as [|u rest IH]; intros t.
  - simpl. now rewrite append_nil_r.
  - rewrite join_cons, IH. reflexivity.
Qed.

Section SaveBlock.

Variable host : Host.
Variable environ : list (string * string).
Variable doc : string.

(** The four ways the block under [if text:] can go. *)
Lemma save_block_cases :
  (exists e,
      open_w host output_path = Raise e
      /\ save_block host environ (Some doc) = (Raise e, []))
  \/ (exists e,
      open_w host output_path = Return tt
      /\ write host output_path doc = Raise e
      /\ save_block host environ (Some doc)
         = (Raise e, [EvOpenW output_path]))
  \/ (exists e,
      can_save host doc
      /\ stdout_print host environ saved_message = Raise e
      /\ save_block host environ (Some doc)
         = (Raise e, [EvOpenW output_path; EvWrite output_path doc]))
  \/ (can_save host doc
      /\ stdout_print host environ saved_message = Return tt
      /\ save_block host environ (Some doc) = (Return tt, save_trace doc)).
Proof.
  unfold save_block, open_for_writing, f_write, can_save, save_trace, attempt.
  destruct (open_w host output_path) as [[]|e]; [|left; eauto].
  right. destruct (write host output_path doc) as [[]|e]; [|left; eauto].
  right. destruct (stdout_print host environ saved_message) as [[]|e].
  - right. auto.
  - left. exists e. auto.
Qed.

Lemma save_block_ok :
  can_save host doc ->
  stdout_print host environ saved_message = Return tt ->
  save_block host environ (Some doc) = (Return tt, save_trace doc).
Proof.
  intros [Hopen Hwrite] Hprint.
  unfold save_block, open_for_writing, f_write, save_trace, attempt.
  rewrite Hopen, Hwrite, Hprint. reflexivity.
Qed.

(** Once the file is opened and written, the block has emitted the two
    file events, whatever becomes of the final message. *)
Lemma save_block_saved :
  can_save host doc ->
  exists rest,
    log (save_block host environ (Some doc))
    = EvOpenW output_path :: EvWrite output_path doc :: rest
    /\ (rest = [] \/ rest = [EvPrint Stdout saved_message]).
Proof.
  intros [Hopen Hwrite].
  unfold save_block, open_for_writing, f_write, attempt.
  rewrite Hopen, Hwrite.
  destruct (stdout_print host environ saved_message) as [[]|e];
    eexists; (split; [reflexivity|]); auto.
Qed.

End SaveBlock.

Section MainRuns.

Variable PdfReader : string -> outcome Reader.
Variable host : Host.
Variables (argv : list string) (environ : list (string * string)).

(** A run that extracts goes on into the block under [if text:] when the
    text is not empty. *)
Lemma main_ok_run (ts : list string) :
  extracts PdfReader input_path ts ->
  main PdfReader host argv environ
  = if PyStr.truthy (document ts)
    then (result (save_block host environ (Some (document ts))),
          (extraction_trace input_path ts
           ++ log (save_block host environ (Some (document ts))))%list)
    else (Return tt, extraction_trace input_path ts).
Proof.
  intros Hok. unfold main. rewrite (extract_ok _ _ _ Hok).
  rewrite join_document. cbn [bind truthy].
  destruct (PyStr.truthy (document ts)).
  - destruct (save_block host environ (Some (document ts))) as [o l].
    reflexivity.
  - cbn. now rewrite app_nil_r.
Qed.

Lemma main_saves (ts : list string) :
  extracts PdfReader input_path ts ->
  document ts <> "" ->
  can_save host (document ts) ->
  stdout_print host environ saved_message = Return tt ->
  main PdfReader host argv environ
  = (Return tt,
     (extraction_trace input_path ts ++ save_trace (document ts))%list).
Proof.
  intros Hok Hne Hsave Hprint. rewrite (main_ok_run _ Hok).
  apply truthy_true_iff in Hne. rewrite Hne.
  now rewrite (save_block_ok _ _ _ Hsave Hprint).
Qed.

Lemma main_skips_empty (ts : list string) :
  extracts PdfReader input_path ts ->
  PyStr.join page_sep ts = "" ->
  main PdfReader host argv environ
  = (Return tt, extraction_trace input_path ts).
Proof.
  intros Hok Hempty. unfold main. rewrite (extract_ok _ _ _ Hok).
  cbn [bind truthy]. rewrite Hempty. cbn. now rewrite app_nil_r.
Qed.

Lemma main_caught (e : exn) :
  extraction_raises PdfReader input_path e ->
  isinstance_Exception e = true ->
  main PdfReader host argv environ
  = (Return tt,
     (log (try_block PdfReader input_path)
      ++ [EvPrint Stderr (diagnostic e)])%list).
Proof.
  intros Hraise Hexc. unfold main.
  rewrite (extract_caught _ _ _ Hraise Hexc).
  cbn. now rewrite app_nil_r.
Qed.

End MainRuns.

(* ===================================================================== *)
(** * The output file                                                    *)
(* ===================================================================== *)




(* ===================================================================== *)
(** * The error path                                                     *)
(* ===================================================================== *)

(** C2: for every failure during extraction (the [try] block raises an
    instance of [Exception]: missing file, corrupt PDF, any library
    error), the exception is caught ([extract_pdf_text] returns [None]),
    the diagnostic is the one message on the error stream, and the program
    ends normally having created no file. *)
Theorem failure_is_caught_and_logged
    (PdfReader : string -> outcome Reader) (host : Host)
    (argv : list string) (environ : list (string * string))
    (e : exn) :
  extraction_raises PdfReader input_path e ->
  isinstance_Exception e = true ->
  result (extract_pdf_text PdfReader input_path) = Return None
  /\ printed Stderr (log (main PdfReader host argv environ)) = [diagnostic e]
  /\ result (main PdfReader host argv environ) = Return tt
  /\ (forall p,
        files_written (log (main PdfReader host argv environ)) p = None).
Proof.
  intros Hraise Hexc.
  rewrite (main_caught _ host argv environ _ Hraise Hexc).
  rewrite (extract_caught _ _ _ Hraise Hexc).
  pose proof (try_block_events PdfReader input_path) as Hbody.
  cbn [result log fst snd]. repeat split.
  - rewrite printed_app, (body_events_stderr _ Hbody). reflexivity.
  - intros p. now rewrite (files_written_body _ _ Hbody).
Qed.

Lemma failure_is_caught_and_logged_witness :
  extraction_raises Samples.corrupt input_path Samples.pdf_read_error
  /\ isinstance_Exception Samples.pdf_read_error = true
  /\ result (extract_pdf_text Samples.corrupt input_path) = Return None
  /\ printed Stderr (log (main Samples.corrupt Samples.desktop [] []))
     = [diagnostic Samples.pdf_read_error]
  /\ result (main Samples.corrupt Samples.desktop [] []) = Return tt
  /\ (forall p,
        files_written (log (main Samples.corrupt Samples.desktop [] [])) p
        = None).
Proof.
  split; [reflexivity | split; [reflexivity|]].
  apply (failure_is_caught_and_logged Samples.corrupt Samples.desktop [] []
           Samples.pdf_read_error); reflexivity.
Defined.

(** C3, as stated, fails when the input file is missing: the whole run
    consists of the call that fails and the diagnostic of the handler.
    Nothing else is printed on either stream, so no message says that no
    output file was produced. *)
Lemma missing_file_run_reports_only_the_error :
  extraction_raises Samples.missing input_path Samples.file_not_found
  /\ log (main Samples.missing Samples.desktop [] [])
     = [EvPdfReader input_path;
        EvPrint Stderr (diagnostic Samples.file_not_found)]
  /\ ~ (exists f s,
          In (EvPrint f s) (log (main Samples.missing Samples.desktop [] []))
          /\ s <> diagnostic Samples.file_not_found).
Proof.
  split; [reflexivity | split; [reflexivity|]].
  intros (f & s & Hin & Hs). cbn in Hin.
  destruct Hin as [Hin|[Hin|[]]]; [discriminate|].
  injection Hin as _ Heq. apply Hs. symmetry. exact Heq.
Qed.

(** C3, amended: for every run in which extraction fails, the diagnostic
    ["Error extracting PDF: <e>"] on the error stream is the last thing
    the program emits: the main block adds nothing to what
    [extract_pdf_text] emitted, and the program ends normally. *)
Theorem failure_ends_with_the_diagnostic
    (PdfReader : string -> outcome Reader) (host : Host)
    (argv : list string) (environ : list (string * string))
    (e : exn) :
  extraction_raises PdfReader input_path e ->
  isinstance_Exception e = true ->
  main PdfReader host argv environ
  = (Return tt,
     (log (try_block PdfReader input_path)
      ++ [EvPrint Stderr (diagnostic e)])%list)
  /\ log (main PdfReader host argv environ)
     = log (extract_pdf_text PdfReader input_path).
Proof.
  intros Hraise Hexc.
  rewrite (main_caught _ host argv environ _ Hraise Hexc).
  rewrite (extract_caught _ _ _ Hraise Hexc). split; reflexivity.
Qed.

Lemma failure_ends_with_the_diagnostic_witness :
  extraction_raises Samples.missing input_path Samples.file_not_found
  /\ isinstance_Exception Samples.file_not_found = true
  /\ main Samples.missing Samples.desktop [] []
     = (Return tt,
        (log (try_block Samples.missing input_path)
         ++ [EvPrint Stderr (diagnostic Samples.file_not_found)])%list)
  /\ log (main Samples.missing Samples.desktop [] [])
     = log (extract_pdf_text Samples.missing input_path).
Proof.
  split; [reflexivity | split; [reflexivity|]].
  apply (failure_ends_with_the_diagnostic Samples.missing Samples.desktop [] []
           Samples.file_not_found); reflexivity.
Defined.

(* ===================================================================== *)
(** * What [extract_pdf_text] returns                                    *)
(* ===================================================================== *)






(** C10: for a successfully extracted PDF with exactly one page, the
    returned document string is that page's text, with no separator before
    or after it. *)
Theorem single_page_document
    (PdfReader : string -> outcome Reader) (pdf_path : string) (t : string) :
  extracts PdfReader pdf_path [t] ->
  result (extract_pdf_text PdfReader pdf_path) = Return (Some t).
Proof. intros Hok. now rewrite (extract_ok _ _ _ Hok). Qed.

Lemma single_page_document_witness :
  extracts Samples.leaflet input_path ["Welcome to VisaNet"]
  /\ result (extract_pdf_text Samples.leaflet input_path)
     = Return (Some "Welcome to VisaNet").
Proof.
  assert (Hok : extracts Samples.leaflet input_path ["Welcome to VisaNet"]).
  { exists (mk_Reader [Samples.text_page "Welcome to VisaNet"]).
    split; [reflexivity | repeat constructor]. }
  split; [exact Hok|].
  exact (single_page_document Samples.leaflet input_path
           "Welcome to VisaNet" Hok).
Defined.

(* ===================================================================== *)
(** * Page order                                                         *)
(* ===================================================================== *)

Lemma join_head (t : string) (rest : list string) :
  PyStr.join page_sep (t :: rest) = t ++ after_pages rest.
Proof.
  revert t. induction rest as [|u rest IH]; intros t.
  - simpl. now rewrite append_nil_r.
  - rewrite join_cons, IH. reflexivity.
Qed.

(** The document string, cut around two consecutive pages. *)
Lemma join_around (k : nat) :
  forall (ts : list string) (a b : string),
    nth_error ts k = Some a ->
    nth_error ts (S k) = Some b ->
    PyStr.join page_sep ts
    = before_pages (firstn k ts) ++ a ++ page_sep ++ b
        ++ after_pages (skipn (S (S k)) ts).
Proof.
  induction k as [|k IH]; intros ts a b Ha Hb.
  - destruct ts as [|x [|y rest]]; try discriminate.
    injection Ha as ->. injection Hb as ->.
    rewrite join_cons, join_head. reflexivity.
  - destruct ts as [|x [|y rest]]; try discriminate.
    rewrite join_cons.
    rewrite (IH (y :: rest) a b Ha Hb).
    cbn [firstn before_pages fold_right skipn].
    now rewrite !append_assoc.
Qed.

(** C5: for every successful extraction of an n-page PDF and every
    1 <= i < n, the returned document string holds the text of page i,
    then the separator, then the text of page i+1; what stands before is
    the pages 1..i-1 and what stands after is the pages i+2..n. *)
Theorem pages_in_order
    (PdfReader : string -> outcome Reader) (pdf_path : string)
    (ts : list string) (i : nat) (a b : string) :
  extracts PdfReader pdf_path ts ->
  1 <= i ->
  nth_error ts (i - 1) = Some a ->
  nth_error ts i = Some b ->
  result (extract_pdf_text PdfReader pdf_path)
  = Return (Some (before_pages (firstn (i - 1) ts)
                    ++ a ++ page_sep ++ b
                    ++ after_pages (skipn (i + 1) ts))).
Proof.
  intros Hok Hi Ha Hb. rewrite (extract_ok _ _ _ Hok). cbn [result fst].
  destruct i as [|k]; [lia|].
  replace (S k - 1) with k in * by lia.
  replace (S k + 1) with (S (S k)) by lia.
  now rewrite (join_around k ts a b Ha Hb).
Qed.

Lemma pages_in_order_witness :
  extracts Samples.journey input_path ["Sign up"; "Pay"]
  /\ 1 <= 1
  /\ nth_error ["Sign up"; "Pay"] (1 - 1) = Some "Sign up"
  /\ nth_error ["Sign up"; "Pay"] 1 = Some "Pay"
  /\ result (extract_pdf_text Samples.journey input_path)
     = Return (Some (before_pages (firstn (1 - 1) ["Sign up"; "Pay"])
                       ++ "Sign up" ++ page_sep ++ "Pay"
                       ++ after_pages (skipn (1 + 1) ["Sign up"; "Pay"]))).
Proof.
  assert (Hok : extracts Samples.journey input_path ["Sign up"; "Pay"]).
  { exists (mk_Reader [Samples.text_page "Sign up"; Samples.text_page "Pay"]).
    split; [reflexivity | repeat constructor]. }
  split; [exact Hok|].
  split; [apply le_n|]. split; [reflexivity|]. split; [reflexivity|].
  exact (pages_in_order Samples.journey input_path ["Sign up"; "Pay"] 1
           "Sign up" "Pay" Hok (le_n 1) eq_refl eq_refl).
Defined.

(* ===================================================================== *)
(** * The order of the steps                                             *)
(* ===================================================================== *)

Lemma enumerate_In {A} (xs : list A) :
  forall (start k : nat) (x : A),
    nth_error xs k = Some x -> In (start + k, x) (enumerate xs start).
Proof.
  induction xs as [|y xs IH]; intros start k x Hk.
  - destruct k; discriminate.
  - destruct k as [|k]; cbn [enumerate].
    + injection Hk as ->. left. f_equal. lia.
    + right. replace (start + S k) with (S start + k) by lia.
      apply IH. exact Hk.
Qed.

(** The text of every page is printed during extraction. *)
Lemma page_text_printed (path : string) (ts : list string)
    (k : nat) (t : string) :
  nth_error ts k = Some t ->
  In (EvPrint Stdout t) (extraction_trace path ts).
Proof.
  intros Hk. unfold extraction_trace. apply in_or_app. right.
  apply in_flat_map. exists (1 + k, t). split.
  - apply enumerate_In. exact Hk.
  - cbn. auto.
Qed.

(** C6: on a document that extracts to a non-empty text, on a host that
    lets the output file be opened and written, the run is, in this
    order: the call that opens the input, the page count and a rule, then
    for each page in page order its banner, the extraction of its text,
    the text and a rule, and only then the creation of the output file
    and the writing of the joined page texts into it; the closing message
    comes last, if standard output takes it.  In particular the text of
    every page has been printed before the output file is created and
    written, and no file is touched earlier. *)
Theorem steps_in_order
    (PdfReader : string -> outcome Reader) (host : Host)
    (argv : list string) (environ : list (string * string))
    (ts : list string) :
  extracts PdfReader input_path ts ->
  document ts <> "" ->
  can_save host (document ts) ->
  exists before after,
    log (main PdfReader host argv environ)
    = (before
       ++ EvOpenW output_path :: EvWrite output_path (document ts)
       :: after)%list
    /\ before
       = ([ EvPdfReader input_path;
            EvPrint Stdout
              ("PDF Pages: " ++ PyStr.of_nat (length ts) ++ PyStr.nl);
            EvPrint Stdout (PyStr.repeat "=" 80) ]
          ++ flat_map page_trace (enumerate ts 1))%list
    /\ (after = [] \/ after = [EvPrint Stdout saved_message])
    /\ existsb file_event before = false
    /\ (forall (k : nat) (t : string),
          nth_error ts k = Some t -> In (EvPrint Stdout t) before).
Proof.
  intros Hok Hne Hsave. rewrite (main_ok_run _ host argv environ _ Hok).
  apply truthy_true_iff in Hne. rewrite Hne. cbn [log snd].
  destruct (save_block_saved host environ _ Hsave) as (rest & -> & Hrest).
  exists (extraction_trace input_path ts), rest.
  split; [reflexivity|]. split; [reflexivity|]. split; [exact Hrest|].
  split.
  - apply body_events_no_file. exact (extraction_trace_body _ _ _ Hok).
  - intros k t Hk. apply (page_text_printed _ _ k). exact Hk.
Qed.

Lemma steps_in_order_witness :
  extracts Samples.journey input_path ["Sign up"; "Pay"]
  /\ document ["Sign up"; "Pay"] <> ""
  /\ can_save Samples.desktop (document ["Sign up"; "Pay"])
  /\ exists before after,
       log (main Samples.journey Samples.desktop [] [])
       = (before
          ++ EvOpenW output_path
          :: EvWrite output_path (document ["Sign up"; "Pay"])
          :: after)%list
       /\ before
          = ([ EvPdfReader input_path;
               EvPrint Stdout
                 ("PDF Pages: " ++ PyStr.of_nat (length ["Sign up"; "Pay"])
                    ++ PyStr.nl);
               EvPrint Stdout (PyStr.repeat "=" 80) ]
             ++ flat_map page_trace (enumerate ["Sign up"; "Pay"] 1))%list
       /\ (after = [] \/ after = [EvPrint Stdout saved_message])
       /\ existsb file_event before = false
       /\ (forall (k : nat) (t : string),
             nth_error ["Sign up"; "Pay"] k = Some t ->
             In (EvPrint Stdout t) before).
Proof.
  assert (Hok : extracts Samples.journey input_path ["Sign up"; "Pay"]).
  { exists (mk_Reader [Samples.text_page "Sign up"; Samples.text_page "Pay"]).
    split; [reflexivity | repeat constructor]. }
  assert (Hne : document ["Sign up"; "Pay"] <> "").
  { discriminate. }
  assert (Hsave : can_save Samples.desktop (document ["Sign up"; "Pay"])).
  { split; reflexivity. }
  split; [exact Hok | split; [exact Hne | split; [exact Hsave|]]].
  exact (steps_in_order Samples.journey Samples.desktop [] []
           ["Sign up"; "Pay"] Hok Hne Hsave).
Defined.

(* ===================================================================== *)
(** * The input path                                                     *)
(* ===================================================================== *)



Lemma page_event_not_open (l : list event) :
  forallb page_event l = true -> existsb opens_pdf l = false.
Proof.
  induction l as [|ev l IH]; [reflexivity|].
  cbn [forallb existsb]. intros H. apply andb_prop in H as [Hev Hl].
  rewrite (IH Hl). destruct ev as [p|n|[|] s|p|p d]; try discriminate;
    reflexivity.
Qed.



(* ===================================================================== *)
(** * The empty document                                                 *)
(* ===================================================================== *)

Lemma join_empty (ts : list string) :
  PyStr.join page_sep ts = "" -> ts = [] \/ ts = [""].
Proof.
  destruct ts as [|x [|y rest]]; intros H.
  - left. reflexivity.
  - right. simpl in H. now subst x.
  - rewrite join_cons in H. apply append_eq_empty in H as [_ H].
    discriminate H.
Qed.

(** C8: when extraction succeeds but the joined text is the empty string
    (no pages, or a single page with no text), the program ends normally
    having emitted only what [extract_pdf_text] printed on standard
    output: it writes no file, prints no success message, and prints
    nothing on the error stream. *)
Theorem empty_text_is_not_saved
    (PdfReader : string -> outcome Reader) (host : Host)
    (argv : list string) (environ : list (string * string))
    (ts : list string) :
  extracts PdfReader input_path ts ->
  PyStr.join page_sep ts = "" ->
  main PdfReader host argv environ = (Return tt, extraction_trace input_path ts)
  /\ (forall p, files_written (log (main PdfReader host argv environ)) p = None)
  /\ ~ In (EvPrint Stdout saved_message) (log (main PdfReader host argv environ))
  /\ printed Stderr (log (main PdfReader host argv environ)) = [].
Proof.
  intros Hok Hempty.
  rewrite (main_skips_empty _ host argv environ _ Hok Hempty). cbn [log snd].
  assert (Hbody : forallb body_event (extraction_trace input_path ts) = true).
  { pose proof (try_block_events PdfReader input_path) as H.
    rewrite (try_block_ok _ _ _ Hok) in H. exact H. }
  split; [reflexivity|]. split; [|split].
  - intros p. rewrite <- (app_nil_r (extraction_trace input_path ts)).
    now rewrite (files_written_body _ _ Hbody).
  - destruct (join_empty _ Hempty) as [-> | ->]; cbn;
      intros H; repeat (destruct H as [H|H]; [discriminate H|]); exact H.
  - apply body_events_stderr. exact Hbody.
Qed.

Lemma empty_text_is_not_saved_witness :
  extracts Samples.no_pages input_path []
  /\ PyStr.join page_sep [] = ""
  /\ main Samples.no_pages Samples.desktop [] [] = (Return tt, extraction_trace input_path [])
  /\ (forall p, files_written (log (main Samples.no_pages Samples.desktop [] [])) p = None)
  /\ ~ In (EvPrint Stdout saved_message) (log (main Samples.no_pages Samples.desktop [] []))
  /\ printed Stderr (log (main Samples.no_pages Samples.desktop [] [])) = [].
Proof.
  assert (Hok : extracts Samples.no_pages input_path []).
  { exists (mk_Reader []). split; [reflexivity | constructor]. }
  split; [exact Hok|]. split; [reflexivity|].
  exact (empty_text_is_not_saved Samples.no_pages Samples.desktop [] [] [] Hok eq_refl).
Defined.

(* ===================================================================== *)
(** * Every run of the main block                                        *)
(* ===================================================================== *)

Lemma main_propagates
    (PdfReader : string -> outcome Reader) (host : Host)
    (argv : list string) (environ : list (string * string)) (e : exn) :
  extraction_raises PdfReader input_path e ->
  isinstance_Exception e = false ->
  main PdfReader host argv environ
  = (Raise e, log (try_block PdfReader input_path)).
Proof.
  intros Hraise Hexc. unfold main.
  rewrite (extract_propagates _ _ _ Hraise Hexc). reflexivity.
Qed.

(** The three ways a run can go. *)
Lemma main_cases
    (PdfReader : string -> outcome Reader) (host : Host)
    (argv : list string) (environ : list (string * string)) :
  (exists ts,
      extracts PdfReader input_path ts
      /\ main PdfReader host argv environ
         = if PyStr.truthy (document ts)
           then (result (save_block host environ (Some (document ts))),
                 (extraction_trace input_path ts
                  ++ log (save_block host environ (Some (document ts))))%list)
           else (Return tt, extraction_trace input_path ts))
  \/ (exists e,
      extraction_raises PdfReader input_path e
      /\ isinstance_Exception e = true
      /\ main PdfReader host argv environ
         = (Return tt,
            (log (try_block PdfReader input_path)
             ++ [EvPrint Stderr (diagnostic e)])%list))
  \/ (exists e,
      extraction_raises PdfReader input_path e
      /\ isinstance_Exception e = false
      /\ main PdfReader host argv environ
         = (Raise e, log (try_block PdfReader input_path))).
Proof.
  destruct (try_block_cases PdfReader input_path) as [[ts Hok]|[e Hraise]].
  - left. exists ts. split; [exact Hok|]. now apply main_ok_run.
  - right. destruct (isinstance_Exception e) eqn:Hexc; [left|right];
      exists e; (split; [exact Hraise | split; [exact Hexc|]]).
    + now apply main_caught.
    + now apply main_propagates.
Qed.

Lemma files_after_app (fs0 : string -> option string) (l1 l2 : list event) :
  files_after fs0 (l1 ++ l2)%list = files_after (files_after fs0 l1) l2.
Proof. unfold files_after. apply fold_left_app. Qed.

Lemma files_after_body (fs0 : string -> option string) (l : list event) :
  forallb body_event l = true -> files_after fs0 l = fs0.
Proof. apply body_events_files. Qed.

(** Saving replaces the output file and nothing else. *)
Lemma files_after_save (fs0 : string -> option string) (doc p : string) :
  files_after fs0 (save_trace doc) p
  = if String.eqb p output_path then Some doc else fs0 p.
Proof.
  unfold files_after, save_trace. cbn [fold_left fs_step].
  destruct (String.eqb p output_path) eqn:Hp; [|reflexivity].
  rewrite String.eqb_refl. reflexivity.
Qed.


(* ===================================================================== *)
(** * More about the output file                                         *)
(* ===================================================================== *)

(** X1: whenever a run leaves a file behind, that file is the output
    file, extraction succeeded with a non-empty text and the host let the
    file be opened; the file then holds the whole joined text, unless
    [f.write] raised.  The script writes to no other path and never
    creates the file after a failed or empty extraction. *)
Theorem written_file_is_the_output_file
    (PdfReader : string -> outcome Reader) (host : Host)
    (argv : list string) (environ : list (string * string))
    (p d : string) :
  files_written (log (main PdfReader host argv environ)) p = Some d ->
  p = output_path
  /\ exists ts,
       extracts PdfReader input_path ts
       /\ document ts <> ""
       /\ open_w host output_path = Return tt
       /\ (d = document ts
           \/ exists e, write host output_path (document ts) = Raise e).
Proof.
  intros Hfile.
  destruct (main_cases PdfReader host argv environ)
    as [(ts & Hok & Hrun)|[(e & Hraise & Hexc & Hrun)|(e & Hraise & Hexc & Hrun)]];
    rewrite Hrun in Hfile.
  - destruct (PyStr.truthy (document ts)) eqn:Htruthy; cbn [log snd] in Hfile.
    + rewrite (files_written_body _ _ (extraction_trace_body _ _ _ Hok))
        in Hfile.
      assert (Hne : document ts <> "") by now apply truthy_true_iff.
      change (files_written ?l p) with (files_after (fun _ => None) l p)
        in Hfile.
      destruct (save_block_cases host environ (document ts))
        as [(e & Hopen & Hsb)
           |[(e & Hopen & Hwrite & Hsb)
            |[(e & [Hopen Hwrite] & Hprint & Hsb)
             |([Hopen Hwrite] & Hprint & Hsb)]]];
        rewrite Hsb in Hfile; cbn [log snd] in Hfile.
      * discriminate Hfile.
      * cbn in Hfile.
        destruct (String.eqb p output_path) eqn:Hp; [|discriminate Hfile].
        apply String.eqb_eq in Hp. split; [exact Hp|].
        exists ts. repeat split; eauto.
      * cbn in Hfile.
        destruct (String.eqb p output_path) eqn:Hp; [|discriminate Hfile].
        apply String.eqb_eq in Hp. injection Hfile as <-.
        split; [exact Hp|]. exists ts. repeat split; auto.
      * rewrite files_after_save in Hfile.
        destruct (String.eqb p output_path) eqn:Hp; [|discriminate Hfile].
        apply String.eqb_eq in Hp. injection Hfile as <-.
        split; [exact Hp|]. exists ts. repeat split; auto.
    + rewrite <- (app_nil_r (extraction_trace input_path ts)) in Hfile.
      rewrite (files_written_body _ _ (extraction_trace_body _ _ _ Hok))
        in Hfile.
      discriminate Hfile.
  - cbn [log snd] in Hfile.
    rewrite (files_written_body _ _ (try_block_events _ _)) in Hfile.
    discriminate Hfile.
  - cbn [log snd] in Hfile.
    rewrite <- (app_nil_r (log (try_block PdfReader input_path))) in Hfile.
    rewrite (files_written_body _ _ (try_block_events _ _)) in Hfile.
    discriminate Hfile.
Qed.

Lemma written_file_is_the_output_file_witness :
  files_written (log (main Samples.journey Samples.desktop [] [])) output_path
  = Some (document ["Sign up"; "Pay"])
  /\ output_path = output_path
  /\ exists ts,
       extracts Samples.journey input_path ts
       /\ document ts <> ""
       /\ open_w Samples.desktop output_path = Return tt
       /\ (document ["Sign up"; "Pay"] = document ts
           \/ exists e,
                write Samples.desktop output_path (document ts) = Raise e).
Proof.
  split; [reflexivity|].
  apply (written_file_is_the_output_file Samples.journey Samples.desktop
           [] [] output_path (document ["Sign up"; "Pay"])).
  reflexivity.
Defined.

(** X2: a run that does not extract a non-empty text (extraction fails,
    is interrupted, or yields the empty string) leaves every file as it
    found it; in particular an output file from an earlier run stays, with
    its old content. *)
Theorem unsaved_run_keeps_files
    (PdfReader : string -> outcome Reader) (host : Host)
    (argv : list string) (environ : list (string * string))
    (fs0 : string -> option string) :
  (forall ts, extracts PdfReader input_path ts ->
              PyStr.join page_sep ts = "") ->
  files_after fs0 (log (main PdfReader host argv environ)) = fs0.
Proof.
  intros Hempty.
  destruct (main_cases PdfReader host argv environ)
    as [(ts & Hok & Hrun)|[(e & Hraise & Hexc & Hrun)|(e & Hraise & Hexc & Hrun)]];
    rewrite Hrun.
  - rewrite <- join_document, (Hempty ts Hok). cbn [PyStr.truthy log snd].
    apply files_after_body. exact (extraction_trace_body _ _ _ Hok).
  - cbn [log snd].
    rewrite files_after_app, (files_after_body _ _ (try_block_events _ _)).
    reflexivity.
  - apply files_after_body. apply try_block_events.
Qed.

Lemma unsaved_run_keeps_files_witness :
  (forall ts, extracts Samples.corrupt input_path ts ->
              PyStr.join page_sep ts = "")
  /\ files_after Samples.old_files
       (log (main Samples.corrupt Samples.desktop [] []))
     = Samples.old_files.
Proof.
  assert (H : forall ts, extracts Samples.corrupt input_path ts ->
                         PyStr.join page_sep ts = "").
  { intros ts (reader & Hopen & Hpages). injection Hopen as <-.
    cbn in Hpages. inversion Hpages as [|p t ps ts' Hp Hrest]; subst.
    inversion Hrest as [|p2 t2 ps2 ts2 Hp2 Hrest2]; subst.
    discriminate Hp2. }
  split; [exact H|].
  exact (unsaved_run_keeps_files Samples.corrupt Samples.desktop [] []
           Samples.old_files H).
Defined.

(** X3: a run that extracts a non-empty text, on a host that lets the
    output file be opened and written, replaces whatever the output file
    held before with the joined text (it does not append to it) and
    leaves every other file as it was. *)
Theorem saving_run_replaces_output_only
    (PdfReader : string -> outcome Reader) (host : Host)
    (argv : list string) (environ : list (string * string))
    (fs0 : string -> option string) (ts : list string) :
  extracts PdfReader input_path ts ->
  document ts <> "" ->
  can_save host (document ts) ->
  files_after fs0 (log (main PdfReader host argv environ)) output_path
  = Some (document ts)
  /\ (forall p, p <> output_path ->
        files_after fs0 (log (main PdfReader host argv environ)) p = fs0 p).
Proof.
  intros Hok Hne Hsave. rewrite (main_ok_run _ host argv environ _ Hok).
  apply truthy_true_iff in Hne. rewrite Hne. cbn [log snd].
  rewrite files_after_app,
    (files_after_body _ _ (extraction_trace_body _ _ _ Hok)).
  assert (Hfiles : forall p,
            files_after fs0
              (log (save_block host environ (Some (document ts)))) p
            = if String.eqb p output_path then Some (document ts)
              else fs0 p).
  { intros p.
    destruct (save_block_saved host environ _ Hsave)
      as (rest & -> & [-> | ->]);
      [|exact (files_after_save fs0 (document ts) p)].
    unfold files_after. cbn [fold_left fs_step].
    destruct (String.eqb p output_path) eqn:Hp; [|reflexivity].
    rewrite String.eqb_refl. reflexivity. }
  split.
  - rewrite Hfiles. reflexivity.
  - intros p Hp. rewrite Hfiles.
    destruct (String.eqb p output_path) eqn:Heq; [|reflexivity].
    apply String.eqb_eq in Heq. contradiction.
Qed.

Lemma saving_run_replaces_output_only_witness :
  extracts Samples.journey input_path ["Sign up"; "Pay"]
  /\ document ["Sign up"; "Pay"] <> ""
  /\ can_save Samples.desktop (document ["Sign up"; "Pay"])
  /\ files_after Samples.old_files
       (log (main Samples.journey Samples.desktop [] [])) output_path
     = Some (document ["Sign up"; "Pay"])
  /\ (forall p, p <> output_path ->
        files_after Samples.old_files
          (log (main Samples.journey Samples.desktop [] [])) p
        = Samples.old_files p).
Proof.
  assert (Hok : extracts Samples.journey input_path ["Sign up"; "Pay"]).
  { exists (mk_Reader [Samples.text_page "Sign up"; Samples.text_page "Pay"]).
    split; [reflexivity | repeat constructor]. }
  assert (Hne : document ["Sign up"; "Pay"] <> "").
  { discriminate. }
  assert (Hsave : can_save Samples.desktop (document ["Sign up"; "Pay"])).
  { split; reflexivity. }
  split; [exact Hok | split; [exact Hne | split; [exact Hsave|]]].
  exact (saving_run_replaces_output_only Samples.journey Samples.desktop
           [] [] Samples.old_files ["Sign up"; "Pay"] Hok Hne Hsave).
Defined.



(* ===================================================================== *)
(** * Runs that stop early                                               *)
(* ===================================================================== *)

(** The loop up to the page that fails. *)
Lemma loop_failure_log (ps1 : list Page) (ts : list string)
    (p : Page) (ps2 : list Page) (e : exn) :
  Forall2 page_ok ps1 ts ->
  extract_text p = Raise e ->
  forall (start : nat) (text_content : list string),
    for_in (enumerate (ps1 ++ p :: ps2) start) page_step text_content
    = (Raise e,
       (flat_map page_trace (enumerate ts start)
        ++ [ EvPrint Stdout (PyStr.nl ++ "--- PAGE "
                               ++ PyStr.of_nat (start + length ts) ++ " ---"
                               ++ PyStr.nl);
             EvExtractText (start + length ts) ])%list).
Proof.
  intros Hok Hp. induction Hok as [|q t ps1 ts Hq Hok IH]; intros start acc.
  - cbn [app enumerate for_in page_step length flat_map].
    rewrite Hp, Nat.add_0_r. reflexivity.
  - cbn [app enumerate for_in page_step length].
    unfold page_ok in Hq. rewrite Hq.
    cbn [bind print emit call ret app].
    rewrite (IH (S start) (acc ++ [t])%list).
    cbn [flat_map page_trace app].
    replace (S start + length ts) with (start + S (length ts)) by lia.
    reflexivity.
Qed.

Lemma try_block_failure_log
    (PdfReader : string -> outcome Reader) (path : string)
    (reader : Reader) (ps1 ps2 : list Page) (ts : list string)
    (p : Page) (e : exn) :
  PdfReader path = Return reader ->
  pages reader = (ps1 ++ p :: ps2)%list ->
  Forall2 page_ok ps1 ts ->
  extract_text p = Raise e ->
  try_block PdfReader path
  = (Raise e, failure_trace path (length (pages reader)) ts).
Proof.
  intros Hopen Hpages Hok Hp. unfold try_block. rewrite Hopen.
  destruct reader as [ps]. cbn [pages] in *. subst ps.
  cbn [bind print emit call ret app pages].
  rewrite (loop_failure_log ps1 ts p ps2 e Hok Hp 1 []).
  reflexivity.
Qed.

(** X5: when page k of an n-page document is the first that fails to
    extract, the run has printed the page count n and, in full, the pages
    1..k-1; it has printed the banner of page k and nothing of the pages
    after it, which are never extracted.  If the exception is an instance
    of [Exception] the diagnostic follows and the program ends normally;
    otherwise the exception ends the program. *)
Theorem page_failure_run
    (PdfReader : string -> outcome Reader) (host : Host)
    (argv : list string) (environ : list (string * string))
    (reader : Reader) (ps1 ps2 : list Page) (ts : list string)
    (p : Page) (e : exn) :
  PdfReader input_path = Return reader ->
  pages reader = (ps1 ++ p :: ps2)%list ->
  Forall2 page_ok ps1 ts ->
  extract_text p = Raise e ->
  main PdfReader host argv environ
  = if isinstance_Exception e
    then (Return tt,
          (failure_trace input_path (length ts + 1 + length ps2) ts
           ++ [EvPrint Stderr (diagnostic e)])%list)
    else (Raise e,
          failure_trace input_path (length ts + 1 + length ps2) ts).
Proof.
  intros Hopen Hpages Hok Hp.
  pose proof (try_block_failure_log _ _ _ _ _ _ _ _ Hopen Hpages Hok Hp)
    as Htry.
  assert (Hlen : length (pages reader) = length ts + 1 + length ps2).
  { rewrite Hpages, length_app, (Forall2_length Hok). cbn [length]. lia. }
  rewrite Hlen in Htry.
  assert (Hraise : extraction_raises PdfReader input_path e)
    by (unfold extraction_raises; now rewrite Htry).
  destruct (isinstance_Exception e) eqn:Hexc.
  - rewrite (main_caught _ host argv environ _ Hraise Hexc), Htry. reflexivity.
  - rewrite (main_propagates _ host argv environ _ Hraise Hexc), Htry.
    reflexivity.
Qed.

Lemma page_failure_run_witness :
  Samples.corrupt input_path
  = Return (mk_Reader [Samples.text_page "Sign up";
                       mk_Page (Raise Samples.pdf_read_error)])
  /\ pages (mk_Reader [Samples.text_page "Sign up";
                       mk_Page (Raise Samples.pdf_read_error)])
     = ([Samples.text_page "Sign up"]
        ++ mk_Page (Raise Samples.pdf_read_error) :: [])%list
  /\ Forall2 page_ok [Samples.text_page "Sign up"] ["Sign up"]
  /\ extract_text (mk_Page (Raise Samples.pdf_read_error))
     = Raise Samples.pdf_read_error
  /\ main Samples.corrupt Samples.desktop [] []
     = if isinstance_Exception Samples.pdf_read_error
       then (Return tt,
             (failure_trace input_path (length ["Sign up"] + 1 + length (@nil Page))
                ["Sign up"]
              ++ [EvPrint Stderr (diagnostic Samples.pdf_read_error)])%list)
       else (Raise Samples.pdf_read_error,
             failure_trace input_path
               (length ["Sign up"] + 1 + length (@nil Page)) ["Sign up"]).
Proof.
  assert (Hok : Forall2 page_ok [Samples.text_page "Sign up"] ["Sign up"]).
  { repeat constructor. }
  split; [reflexivity|]. split; [reflexivity|]. split; [exact Hok|].
  split; [reflexivity|].
  exact (page_failure_run Samples.corrupt Samples.desktop [] []
           (mk_Reader [Samples.text_page "Sign up";
                       mk_Page (Raise Samples.pdf_read_error)])
           [Samples.text_page "Sign up"] [] ["Sign up"]
           (mk_Page (Raise Samples.pdf_read_error)) Samples.pdf_read_error
           eq_refl eq_refl Hok eq_refl).
Defined.

(** X6: an exception that is not an instance of [Exception] goes through
    the main block as well: the program ends with that exception, having
    printed no diagnostic of its own and written no file. *)
Theorem interrupt_ends_the_program
    (PdfReader : string -> outcome Reader) (host : Host)
    (argv : list string) (environ : list (string * string)) (e : exn) :
  extraction_raises PdfReader input_path e ->
  isinstance_Exception e = false ->
  result (main PdfReader host argv environ) = Raise e
  /\ log (main PdfReader host argv environ)
     = log (try_block PdfReader input_path)
  /\ printed Stderr (log (main PdfReader host argv environ)) = []
  /\ (forall p,
        files_written (log (main PdfReader host argv environ)) p = None).
Proof.
  intros Hraise Hexc. rewrite (main_propagates _ host argv environ _ Hraise Hexc).
  cbn [result log fst snd].
  pose proof (try_block_events PdfReader input_path) as Hbody.
  repeat split.
  - apply body_events_stderr. exact Hbody.
  - intros p. rewrite <- (app_nil_r (log (try_block PdfReader input_path))).
    now rewrite (files_written_body _ _ Hbody).
Qed.

Lemma interrupt_ends_the_program_witness :
  extraction_raises Samples.interrupted_page input_path Samples.ctrl_c
  /\ isinstance_Exception Samples.ctrl_c = false
  /\ result (main Samples.interrupted_page Samples.desktop [] []) = Raise Samples.ctrl_c
  /\ log (main Samples.interrupted_page Samples.desktop [] [])
     = log (try_block Samples.interrupted_page input_path)
  /\ printed Stderr (log (main Samples.interrupted_page Samples.desktop [] [])) = []
  /\ (forall p,
        files_written (log (main Samples.interrupted_page Samples.desktop [] [])) p = None).
Proof.
  split; [reflexivity | split; [reflexivity|]].
  apply (interrupt_ends_the_program Samples.interrupted_page Samples.desktop [] []
           Samples.ctrl_c); reflexivity.
Defined.



(* ===================================================================== *)
(** * Pages and diagnostics in every run                                 *)
(* ===================================================================== *)

Lemma extracted_pages_app (l1 l2 : list event) :
  extracted_pages (l1 ++ l2)%list
  = (extracted_pages l1 ++ extracted_pages l2)%list.
Proof. unfold extracted_pages. apply flat_map_app. Qed.

(** The loop numbers the pages it extracts from its start value upwards,
    one by one, however it ends. *)
Lemma loop_extracted (ps : list Page) :
  forall (start : nat) (text_content : list string),
    exists m,
      m <= length ps
      /\ extracted_pages
           (log (for_in (enumerate ps start) page_step text_content))
         = seq start m.
Proof.
  induction ps as [|p ps IH]; intros start acc.
  - exists 0. split; [apply le_n | reflexivity].
  - cbn [enumerate for_in page_step].
    destruct (extract_text p) as [t|e].
    + cbn [bind print emit call ret app].
      destruct (IH (S start) (acc ++ [t])%list) as (m & Hm & Hseq).
      exists (S m). split; [cbn [length]; lia|].
      destruct (for_in _ _ _) as [o l]. cbn [log snd] in *.
      unfold extracted_pages in *. cbn [flat_map app seq]. now rewrite Hseq.
    + exists 1. split; [cbn [length]; lia | reflexivity].
Qed.

Lemma try_block_extracted
    (PdfReader : string -> outcome Reader) (path : string) :
  exists m,
    extracted_pages (log (try_block PdfReader path)) = seq 1 m
    /\ match PdfReader path with
       | Return reader => m <= length (pages reader)
       | Raise _ => m = 0
       end.
Proof.
  unfold try_block. destruct (PdfReader path) as [reader|e].
  - cbn [bind print emit call ret app].
    destruct (loop_extracted (pages reader) 1 []) as (m & Hm & Hseq).
    exists m. split; [|exact Hm].
    destruct (for_in _ _ _) as [[tc|e] l]; cbn [bind ret log snd] in *;
      rewrite ?app_nil_r; exact Hseq.
  - exists 0. split; reflexivity.
Qed.

(** The block under [if text:] extracts no page. *)
Lemma save_block_no_extract (host : Host) (environ : list (string * string))
    (text : option string) :
  extracted_pages (log (save_block host environ text)) = [].
Proof.
  unfold save_block, open_for_writing, f_write, attempt.
  destruct (open_w host output_path) as [[]|e]; [|reflexivity].
  destruct text as [doc|]; [|reflexivity].
  destruct (write host output_path doc) as [[]|e]; [|reflexivity].
  destruct (stdout_print host environ saved_message) as [[]|e]; reflexivity.
Qed.

(** After the [try] block the run extracts no page. *)
Lemma main_tail_extracted
    (PdfReader : string -> outcome Reader) (host : Host)
    (argv : list string) (environ : list (string * string)) :
  exists tail,
    log (main PdfReader host argv environ)
    = (log (try_block PdfReader input_path) ++ tail)%list
    /\ extracted_pages tail = [].
Proof.
  unfold main, extract_pdf_text, try_except_Exception.
  destruct (try_block PdfReader input_path) as [[text|e] l].
  - cbn [bind]. destruct (truthy text).
    + pose proof (save_block_no_extract host environ text) as Hno.
      destruct (save_block host environ text) as [o l'].
      exists l'. split; [reflexivity | exact Hno].
    + exists []. split; reflexivity.
  - destruct (isinstance_Exception e).
    + exists [EvPrint Stderr (diagnostic e)].
      split; [cbn; now rewrite app_nil_r | reflexivity].
    + exists []. split; [cbn; now rewrite app_nil_r | reflexivity].
Qed.

(** X8: in every run, whatever the library does, the pages handed to
    [extract_text] are numbered 1, 2, ..., m without gap or repeat, where
    m is at most the number of pages of the opened document and 0 when
    the document could not be opened: no page is extracted twice, none is
    skipped, and nothing is extracted after a failure. *)
Theorem pages_extracted_in_sequence
    (PdfReader : string -> outcome Reader) (host : Host)
    (argv : list string) (environ : list (string * string)) :
  exists m,
    extracted_pages (log (main PdfReader host argv environ)) = seq 1 m
    /\ match PdfReader input_path with
       | Return reader => m <= length (pages reader)
       | Raise _ => m = 0
       end.
Proof.
  destruct (main_tail_extracted PdfReader host argv environ) as (tail & -> & Htail).
  destruct (try_block_extracted PdfReader input_path) as (m & Hseq & Hm).
  exists m. split; [|exact Hm].
  now rewrite extracted_pages_app, Htail, app_nil_r.
Qed.

(** X9: of its own accord [extract_pdf_text] prints on the error stream
    exactly when it returns [None], and then it makes one such [print]:
    the diagnostic of the exception that was raised.  A call that returns
    a text, or that lets an exception through, makes no [print] on the
    error stream.  (What the library itself may log there is not the
    script's doing and is not counted.) *)
Theorem none_comes_with_the_diagnostic
    (PdfReader : string -> outcome Reader) (pdf_path : string) :
  (result (extract_pdf_text PdfReader pdf_path) = Return None
   /\ exists e,
        extraction_raises PdfReader pdf_path e
        /\ printed Stderr (log (extract_pdf_text PdfReader pdf_path))
           = [diagnostic e])
  \/ (result (extract_pdf_text PdfReader pdf_path) <> Return None
      /\ printed Stderr (log (extract_pdf_text PdfReader pdf_path)) = []).
Proof.
  pose proof (try_block_events PdfReader pdf_path) as Hbody.
  destruct (try_block_cases PdfReader pdf_path) as [[ts Hok]|[e Hraise]].
  - right. rewrite (extract_ok _ _ _ Hok). cbn [result log fst snd].
    split; [discriminate|].
    apply body_events_stderr. exact (extraction_trace_body _ _ _ Hok).
  - destruct (isinstance_Exception e) eqn:Hexc.
    + left. rewrite (extract_caught _ _ _ Hraise Hexc).
      cbn [result log fst snd]. split; [reflexivity|].
      exists e. split; [exact Hraise|].
      now rewrite printed_app, (body_events_stderr _ Hbody).
    + right. rewrite (extract_propagates _ _ _ Hraise Hexc).
      cbn [result log fst snd]. split; [discriminate|].
      apply body_events_stderr. exact Hbody.
Qed.

(** X10: [extract_pdf_text] opens the path it is given, once, before it
    does anything else, and opens no other document, for every path and
    in every run. *)
Theorem extract_pdf_text_opens_its_argument
    (PdfReader : string -> outcome Reader) (pdf_path : string) :
  exists rest,
    log (extract_pdf_text PdfReader pdf_path) = EvPdfReader pdf_path :: rest
    /\ forall p, ~ In (EvPdfReader p) rest.
Proof.
  destruct (try_block_log PdfReader pdf_path) as (rest & Hlog & Hrest).
  assert (Hshape : exists tail,
            log (extract_pdf_text PdfReader pdf_path)
            = (log (try_block PdfReader pdf_path) ++ tail)%list
            /\ existsb opens_pdf tail = false).
  { unfold extract_pdf_text, try_except_Exception.
    destruct (try_block PdfReader pdf_path) as [[v|e] l].
    - exists []. split; [cbn; now rewrite app_nil_r | reflexivity].
    - destruct (isinstance_Exception e).
      + exists [EvPrint Stderr (diagnostic e)]. split; reflexivity.
      + exists []. split; [cbn; now rewrite app_nil_r | reflexivity]. }
  destruct Hshape as (tail & -> & Htail). rewrite Hlog.
  exists (rest ++ tail)%list. split; [reflexivity|].
  intros p Hin.
  assert (Hno : existsb opens_pdf (rest ++ tail) = false).
  { rewrite existsb_app, (page_event_not_open _ Hrest), Htail. reflexivity. }
  assert (Hyes : existsb opens_pdf (rest ++ tail) = true).
  { apply existsb_exists. exists (EvPdfReader p). split; [exact Hin|].
    reflexivity. }
  congruence.
Qed.

(* ===================================================================== *)
(** * The shape of the document string                                   *)
(* ===================================================================== *)

(** Joining two non-empty runs of pages puts one separator between. *)
Lemma join_app (sep : string) (l1 l2 : list string) :
  l1 <> [] -> l2 <> [] ->
  PyStr.join sep (l1 ++ l2)
  = PyStr.join sep l1 ++ sep ++ PyStr.join sep l2.
Proof.
  intros H1 H2. induction l1 as [|x [|y l1] IH]; [congruence | |].
  - destruct l2; [congruence | reflexivity].
  - change ((x :: y :: l1) ++ l2)%list with (x :: y :: (l1 ++ l2))%list.
    rewrite !join_cons.
    change (y :: (l1 ++ l2))%list with ((y :: l1) ++ l2)%list.
    rewrite IH by discriminate. now rewrite !append_assoc.
Qed.

Lemma string_length_append (a b : string) :
  String.length (a ++ b) = String.length a + String.length b.
Proof. induction a as [|c a IH]; simpl; congruence. Qed.

Lemma join_length (ts : list string) :
  ts <> [] ->
  String.length (PyStr.join page_sep ts) + 2
  = total_length ts + 2 * length ts.
Proof.
  induction ts as [|x [|y rest] IH]; intros Hne; [congruence | |].
  - cbn. lia.
  - rewrite join_cons, !string_length_append.
    specialize (IH ltac:(discriminate)).
    change (String.length page_sep) with 2.
    cbn [total_length fold_right length] in *. lia.
Qed.

(** X11: extraction composes over concatenation.  When a document is made
    of the pages of one document followed by the pages of another, both
    with at least one page, its extracted text is the text of the first,
    the blank-line separator, and the text of the second. *)
Theorem extraction_of_concatenation
    (PdfReader : string -> outcome Reader)
    (whole part1 part2 : string) (ts1 ts2 : list string) :
  extracts PdfReader part1 ts1 ->
  extracts PdfReader part2 ts2 ->
  extracts PdfReader whole (ts1 ++ ts2) ->
  ts1 <> [] ->
  ts2 <> [] ->
  exists d1 d2,
    result (extract_pdf_text PdfReader part1) = Return (Some d1)
    /\ result (extract_pdf_text PdfReader part2) = Return (Some d2)
    /\ result (extract_pdf_text PdfReader whole)
       = Return (Some (d1 ++ page_sep ++ d2)).
Proof.
  intros H1 H2 Hwhole Hne1 Hne2.
  exists (PyStr.join page_sep ts1), (PyStr.join page_sep ts2).
  rewrite (extract_ok _ _ _ H1), (extract_ok _ _ _ H2),
    (extract_ok _ _ _ Hwhole).
  cbn [result fst]. repeat split.
  now rewrite (join_app page_sep ts1 ts2 Hne1 Hne2).
Qed.

Lemma extraction_of_concatenation_witness :
  extracts Samples.handbook "part1.pdf" ["Sign up"; "Pay"]
  /\ extracts Samples.handbook "part2.pdf" ["Refund"]
  /\ extracts Samples.handbook "handbook.pdf"
       (["Sign up"; "Pay"] ++ ["Refund"])
  /\ ["Sign up"; "Pay"] <> []
  /\ ["Refund"] <> []
  /\ exists d1 d2,
       result (extract_pdf_text Samples.handbook "part1.pdf")
       = Return (Some d1)
       /\ result (extract_pdf_text Samples.handbook "part2.pdf")
          = Return (Some d2)
       /\ result (extract_pdf_text Samples.handbook "handbook.pdf")
          = Return (Some (d1 ++ page_sep ++ d2)).
Proof.
  assert (H1 : extracts Samples.handbook "part1.pdf" ["Sign up"; "Pay"]).
  { exists (mk_Reader [Samples.text_page "Sign up"; Samples.text_page "Pay"]).
    split; [reflexivity | repeat constructor]. }
  assert (H2 : extracts Samples.handbook "part2.pdf" ["Refund"]).
  { exists (mk_Reader [Samples.text_page "Refund"]).
    split; [reflexivity | repeat constructor]. }
  assert (H3 : extracts Samples.handbook "handbook.pdf"
                 (["Sign up"; "Pay"] ++ ["Refund"])).
  { exists (mk_Reader [Samples.text_page "Sign up"; Samples.text_page "Pay";
                       Samples.text_page "Refund"]).
    split; [reflexivity | repeat constructor]. }
  assert (Hne1 : ["Sign up"; "Pay"] <> []) by discriminate.
  assert (Hne2 : ["Refund"] <> []) by discriminate.
  split; [exact H1|]. split; [exact H2|]. split; [exact H3|].
  split; [exact Hne1|]. split; [exact Hne2|].
  exact (extraction_of_concatenation Samples.handbook "handbook.pdf"
           "part1.pdf" "part2.pdf" ["Sign up"; "Pay"] ["Refund"]
           H1 H2 H3 Hne1 Hne2).
Defined.

(** X12: the size of the extracted text.  For a document of n >= 1 pages
    the returned string has as many characters as all the page texts
    together plus two for each of the n-1 separators. *)
Theorem document_length
    (PdfReader : string -> outcome Reader) (pdf_path : string)
    (ts : list string) :
  extracts PdfReader pdf_path ts ->
  ts <> [] ->
  exists doc,
    result (extract_pdf_text PdfReader pdf_path) = Return (Some doc)
    /\ String.length doc + 2 = total_length ts + 2 * length ts.
Proof.
  intros Hok Hne. exists (PyStr.join page_sep ts).
  rewrite (extract_ok _ _ _ Hok). split; [reflexivity|].
  apply join_length. exact Hne.
Qed.

Lemma document_length_witness :
  extracts Samples.journey input_path ["Sign up"; "Pay"]
  /\ ["Sign up"; "Pay"] <> []
  /\ exists doc,
       result (extract_pdf_text Samples.journey input_path)
       = Return (Some doc)
       /\ String.length doc + 2
          = total_length ["Sign up"; "Pay"] + 2 * length ["Sign up"; "Pay"].
Proof.
  assert (Hok : extracts Samples.journey input_path ["Sign up"; "Pay"]).
  { exists (mk_Reader [Samples.text_page "Sign up"; Samples.text_page "Pay"]).
    split; [reflexivity | repeat constructor]. }
  assert (Hne : ["Sign up"; "Pay"] <> []) by discriminate.
  split; [exact Hok | split; [exact Hne|]].
  exact (document_length Samples.journey input_path ["Sign up"; "Pay"]
           Hok Hne).
Defined.

(* ===================================================================== *)
(** * When the host refuses                                              *)
(* ===================================================================== *)

(** X13: when the document extracts to a non-empty text but the output
    file cannot be opened for writing, the program ends with the exception
    of [open], after all the pages have been printed; nothing comes after
    it, and every file is left as it was. *)
Theorem refused_open_ends_the_program
    (PdfReader : string -> outcome Reader) (host : Host)
    (argv : list string) (environ : list (string * string))
    (fs0 : string -> option string) (ts : list string) (e : exn) :
  extracts PdfReader input_path ts ->
  document ts <> "" ->
  open_w host output_path = Raise e ->
  main PdfReader host argv environ
  = (Raise e, extraction_trace input_path ts)
  /\ files_after fs0 (log (main PdfReader host argv environ)) = fs0.
Proof.
  intros Hok Hne Hopen. rewrite (main_ok_run _ host argv environ _ Hok).
  apply truthy_true_iff in Hne. rewrite Hne.
  unfold save_block, open_for_writing, attempt. rewrite Hopen.
  cbn [bind result log fst snd]. rewrite app_nil_r.
  split; [reflexivity|].
  apply files_after_body. exact (extraction_trace_body _ _ _ Hok).
Qed.

Lemma refused_open_ends_the_program_witness :
  extracts Samples.journey input_path ["Sign up"; "Pay"]
  /\ document ["Sign up"; "Pay"] <> ""
  /\ open_w Samples.directory_in_the_way output_path
     = Raise Samples.is_a_directory
  /\ main Samples.journey Samples.directory_in_the_way [] []
     = (Raise Samples.is_a_directory,
        extraction_trace input_path ["Sign up"; "Pay"])
  /\ files_after Samples.old_files
       (log (main Samples.journey Samples.directory_in_the_way [] []))
     = Samples.old_files.
Proof.
  assert (Hok : extracts Samples.journey input_path ["Sign up"; "Pay"]).
  { exists (mk_Reader [Samples.text_page "Sign up"; Samples.text_page "Pay"]).
    split; [reflexivity | repeat constructor]. }
  assert (Hne : document ["Sign up"; "Pay"] <> "").
  { discriminate. }
  split; [exact Hok | split; [exact Hne | split; [reflexivity|]]].
  exact (refused_open_ends_the_program Samples.journey
           Samples.directory_in_the_way [] [] Samples.old_files
           ["Sign up"; "Pay"] Samples.is_a_directory Hok Hne eq_refl).
Defined.



(** X15: when the output file has been written but standard output
    refuses the final message (its encoding has no check mark), the
    program ends with that exception although the output file is complete:
    it holds the whole joined text. *)
Theorem refused_message_comes_after_the_file
    (PdfReader : string -> outcome Reader) (host : Host)
    (argv : list string) (environ : list (string * string))
    (fs0 : string -> option string) (ts : list string) (e : exn) :
  extracts PdfReader input_path ts ->
  document ts <> "" ->
  can_save host (document ts) ->
  stdout_print host environ saved_message = Raise e ->
  main PdfReader host argv environ
  = (Raise e,
     (extraction_trace input_path ts
      ++ [EvOpenW output_path; EvWrite output_path (document ts)])%list)
  /\ files_after fs0 (log (main PdfReader host argv environ)) output_path
     = Some (document ts).
Proof.
  intros Hok Hne [Hopen Hwrite] Hprint.
  rewrite (main_ok_run _ host argv environ _ Hok).
  apply truthy_true_iff in Hne. rewrite Hne.
  unfold save_block, open_for_writing, f_write, attempt.
  rewrite Hopen, Hwrite, Hprint. cbn [bind result log fst snd app].
  split; [reflexivity|].
  rewrite files_after_app,
    (files_after_body _ _ (extraction_trace_body _ _ _ Hok)).
  reflexivity.
Qed.

Lemma refused_message_comes_after_the_file_witness :
  extracts Samples.journey input_path ["Sign up"; "Pay"]
  /\ document ["Sign up"; "Pay"] <> ""
  /\ can_save Samples.desktop (document ["Sign up"; "Pay"])
  /\ stdout_print Samples.desktop Samples.ascii_environ saved_message
     = Raise (Samples.unicode_encode_error "ascii")
  /\ main Samples.journey Samples.desktop [] Samples.ascii_environ
     = (Raise (Samples.unicode_encode_error "ascii"),
        (extraction_trace input_path ["Sign up"; "Pay"]
         ++ [EvOpenW output_path;
             EvWrite output_path (document ["Sign up"; "Pay"])])%list)
  /\ files_after Samples.old_files
       (log (main Samples.journey Samples.desktop [] Samples.ascii_environ))
       output_path
     = Some (document ["Sign up"; "Pay"]).
Proof.
  assert (Hok : extracts Samples.journey input_path ["Sign up"; "Pay"]).
  { exists (mk_Reader [Samples.text_page "Sign up"; Samples.text_page "Pay"]).
    split; [reflexivity | repeat constructor]. }
  assert (Hne : document ["Sign up"; "Pay"] <> "").
  { discriminate. }
  assert (Hsave : can_save Samples.desktop (document ["Sign up"; "Pay"])).
  { split; reflexivity. }
  split; [exact Hok | split; [exact Hne | split; [exact Hsave|]]].
  split; [reflexivity|].
  exact (refused_message_comes_after_the_file Samples.journey
           Samples.desktop [] Samples.ascii_environ Samples.old_files
           ["Sign up"; "Pay"] (Samples.unicode_encode_error "ascii")
           Hok Hne Hsave eq_refl).
Defined.
